(** * Tic Tac Toe backend: the assistant gateway of [api/main.py]

    A shallow embedding of [src/tic_tac_toe_backend/src/api/main.py]:
    the module's start-up sequence, the two request models, the health
    route and the [/assistant] route that relays one prompt to the
    chat-completion provider.

    Python objects are modelled by the data the module reads from them;
    calls that can raise live in a state-and-exception monad whose state
    is whatever the code touches (the module's globals during import,
    the log of outbound provider calls while a request is served). *)

From Stdlib Require Import ZArith QArith Ascii String SpecFloat.
From stdpp Require Import base option list strings gmap.

Set Warnings "-register-all".
Local Open Scope Z_scope.

(** ** Python [str]

    A Python string is a sequence of Unicode code points. *)

Module PyStr.

Abbreviation str := (list N).

(** A source literal (the literals of [main.py] are all ASCII). *)
Definition lit (s : string) : str :=
  List.map N_of_ascii (list_ascii_of_string s).

(** [str.isspace] on one code point, the test [str.strip()] applies to
    each end: the code points Unicode marks as white space. *)
Definition isspace (c : N) : bool :=
  ((9 <=? c) && (c <=? 13) ||
   (28 <=? c) && (c <=? 32) ||
   (c =? 133) || (c =? 160) || (c =? 5760) ||
   (8192 <=? c) && (c <=? 8202) ||
   (c =? 8232) || (c =? 8233) || (c =? 8239) || (c =? 8287) ||
   (c =? 12288))%N.

Fixpoint lstrip (s : str) : str :=
  match s with
  | c :: s' => if isspace c then lstrip s' else s
  | [] => []
  end.

Definition rstrip (s : str) : str := rev (lstrip (rev s)).

(** [s.strip()] with no argument. *)
Definition strip (s : str) : str := rstrip (lstrip s).

(** Truth value of an [Optional[str]]: [None] and [""] are falsy. *)
Definition truthy (o : option str) : bool :=
  match o with
  | Some (_ :: _) => true
  | _ => false
  end.

End PyStr.
Import PyStr.

(** ** Decoded JSON

    What [json.loads] hands to the request model. An object keeps its
    members in textual order; a repeated key is resolved as the decoder
    does, the last member wins. A number with a fraction or an exponent
    is a binary64 float: the decoder accepts [NaN], [Infinity] and
    [-Infinity], and a literal too large for binary64, such as [1e999],
    becomes an infinity. An integer has at most 4300 digits (a longer
    one is not decoded at all) and a finite float is a valid binary64
    value; a string may hold lone surrogates, which the escape
    [\ud800] produces. *)

Inductive json : Type :=
| JNull
| JBool (b : bool)
| JInt (n : Z)
| JFloat (x : spec_float)
| JStr (s : str)
| JArr (items : list json)
| JObj (members : list (str * json)).

Fixpoint obj_get (k : str) (members : list (str * json)) : option json :=
  match members with
  | [] => None
  | (k', v) :: rest =>
      match obj_get k rest with
      | Some v' => Some v'
      | None => if decide (k = k') then Some v else None
      end
  end.

(** ** Encoding a JSON value

    [JSONResponse.render] is
    [json.dumps(content, ensure_ascii=False, allow_nan=False, ...)]
    followed by [.encode("utf-8")]. The first step refuses a float
    that is not finite; the second refuses a string, or a key, that
    holds a surrogate code point. *)

Definition surrogate (c : N) : bool := ((55296 <=? c) && (c <=? 57343))%N.

Definition encodable (s : str) : bool := forallb (fun c => negb (surrogate c)) s.

Definition isfinite (x : spec_float) : bool :=
  match x with
  | S754_zero _ | S754_finite _ _ _ => true
  | S754_infinity _ | S754_nan => false
  end.

Fixpoint dumps_ok (v : json) : bool :=
  match v with
  | JFloat x => isfinite x
  | JArr items => forallb dumps_ok items
  | JObj members => forallb (fun kv => dumps_ok (snd kv)) members
  | _ => true
  end.

Fixpoint encode_ok (v : json) : bool :=
  match v with
  | JStr s => encodable s
  | JArr items => forallb encode_ok items
  | JObj members => forallb (fun kv => encodable (fst kv) && encode_ok (snd kv)) members
  | _ => true
  end.

(** ** Exceptions

    Instances of [Exception]: the class name, the message, and the
    [__cause__] set by [raise ... from e]. [HTTPException] is kept
    apart because the framework renders it. Process-level signals that
    derive from [BaseException] only are outside the model. *)

Inductive exn : Type :=
| Exception (cls : str) (msg : str) (cause : option exn)
| HTTPException (status_code : Z) (detail : str) (cause : option exn).

Definition RuntimeError (msg : str) : exn := Exception (lit "RuntimeError") msg None.
Definition IndexError (msg : str) : exn := Exception (lit "IndexError") msg None.
Definition AttributeError (msg : str) : exn := Exception (lit "AttributeError") msg None.
Definition ValueError (msg : str) : exn := Exception (lit "ValueError") msg None.
Definition UnicodeEncodeError (msg : str) : exn := Exception (lit "UnicodeEncodeError") msg None.
Definition UnicodeDecodeError (msg : str) : exn := Exception (lit "UnicodeDecodeError") msg None.

Definition HTTP_502_BAD_GATEWAY : Z := 502.

(** ** The state-and-exception monad *)

Inductive outcome (A : Type) : Type :=
| Return (a : A)
| Raise (e : exn).
Arguments Return {A} a.
Arguments Raise {A} e.

Definition M (S A : Type) : Type := S -> outcome A * S.

Definition ret {S A} (a : A) : M S A := fun s => (Return a, s).

Definition raise {S A} (e : exn) : M S A := fun s => (Raise e, s).

Definition bind {S A B} (m : M S A) (k : A -> M S B) : M S B :=
  fun s =>
    match m s with
    | (Return a, s') => k a s'
    | (Raise e, s') => (Raise e, s')
    end.

(** [try: body except Exception as e: handler e] *)
Definition try_except {S A} (body : M S A) (handler : exn -> M S A) : M S A :=
  fun s =>
    match body s with
    | (Return a, s') => (Return a, s')
    | (Raise e, s') => handler e s'
    end.

Declare Scope py_scope.
Delimit Scope py_scope with py.
Notation "x <- m ;; k" := (bind m (fun x => k))
  (at level 100, m at next level, right associativity) : py_scope.
Notation "m ;;; k" := (bind m (fun _ => k))
  (at level 100, right associativity) : py_scope.
Open Scope py_scope.

(** [xs[i]] on a list. *)
Definition getitem {S A} (xs : list A) (i : nat) : M S A :=
  match xs !! i with
  | Some x => ret x
  | None => raise (IndexError (lit "list index out of range"))
  end.

(** [o.strip()] where [o] is an [Optional[str]]. *)
Definition call_strip {S} (o : option str) : M S str :=
  match o with
  | Some s => ret (strip s)
  | None => raise (AttributeError (lit "'NoneType' object has no attribute 'strip'"))
  end.

(** ** The provider client

    [openai_client] is a configured handle holding the key. The provider
    is an outside party: its reply to a call may depend on anything it
    has seen (the key, the parameters, the calls before). Every call of
    [chat.completions.create] is appended to the log [outbound]. *)

Record OpenAI : Type := { api_key : str }.

Record CompletionParams : Type := {
  model : str;
  messages : list (list (str * str));
  max_tokens : Z;
  temperature : Q
}.

Record ChatCompletionMessage : Type := { content : option str }.
Record Choice : Type := { choice_message : ChatCompletionMessage }.
Record ChatCompletion : Type := { choices : list Choice }.

Record Call : Type := { call_api_key : str; call_params : CompletionParams }.

Inductive reply : Type :=
| Completion (r : ChatCompletion)
| Failure (e : exn).

Record World : Type := {
  provider : list Call -> Call -> reply;
  outbound : list Call
}.

Definition chat_completions_create (client : OpenAI) (params : CompletionParams)
  : M World ChatCompletion :=
  fun w =>
    let c := {| call_api_key := api_key client; call_params := params |} in
    let w' := {| provider := provider w; outbound := outbound w ++ [c] |} in
    match provider w (outbound w) c with
    | Completion r => (Return r, w')
    | Failure e => (Raise e, w')
    end.

(** ** Request and response models *)

Record AssistantRequest : Type := { message : str }.
Record AssistantResponse : Type := { answer : str }.

(** The body of a request as the framework comes to read it:
    - no body bytes at all;
    - bytes sent under a content type that is not JSON, which are
      handed on undecoded ([text] is their UTF-8 decoding, if they
      have one);
    - bytes on which [json.loads] raised [JSONDecodeError], at
      offset [pos] with message [error];
    - bytes on which decoding raised another exception [e] (not
      UTF-8, an integer of more than 4300 digits, nesting too deep);
    - bytes that decoded to the value [v]. *)
Inductive RequestBody : Type :=
| NoBody
| Raw (text : option str)
| Malformed (pos : Z) (error : str)
| Undecodable (e : exn)
| Body (v : json).

(** The rejected input an error entry carries: a decoded value, or the
    undecoded bytes. *)
Inductive ErrorInput : Type :=
| input_value (v : json)
| input_bytes (text : option str).

(** One entry of a request-validation error. *)
Record ValidationError : Type := {
  err_type : str;
  err_loc : list json;
  err_msg : str;
  err_input : ErrorInput;
  err_ctx : option json
}.

Definition missing_error (loc : list json) (input : json) : ValidationError :=
  {| err_type := lit "missing"; err_loc := loc; err_msg := lit "Field required";
     err_input := input_value input; err_ctx := None |}.

Definition string_type_error (loc : list json) (input : json) : ValidationError :=
  {| err_type := lit "string_type"; err_loc := loc;
     err_msg := lit "Input should be a valid string";
     err_input := input_value input; err_ctx := None |}.

Definition model_attributes_type_error (loc : list json) (input : ErrorInput)
  : ValidationError :=
  {| err_type := lit "model_attributes_type"; err_loc := loc;
     err_msg := lit "Input should be a valid dictionary or object to extract fields from";
     err_input := input; err_ctx := None |}.

Definition json_invalid_error (pos : Z) (error : str) : ValidationError :=
  {| err_type := lit "json_invalid"; err_loc := [JStr (lit "body"); JInt pos];
     err_msg := lit "JSON decode error";
     err_input := input_value (JObj []);
     err_ctx := Some (JObj [ (lit "error", JStr error) ]) |}.

(** How a request is turned away before the route function runs: a
    body that could not be read is a 400, one that fails the model a
    list of validation errors. *)
Inductive Rejection : Type :=
| BadRequest (e : exn)
| Unprocessable (errors : list ValidationError).

(** The schema boundary for a body parameter of type [AssistantRequest]
    (pydantic 2 semantics): the body must decode to an object, the
    required field [message] must be there, and a [str] field accepts a
    JSON string and nothing else. The field carries no length
    constraint; other members are ignored. No body and the body [null]
    both count as a missing body. An error entry echoes the input it
    rejects. *)
Definition validate_AssistantRequest (b : RequestBody)
  : Rejection + AssistantRequest :=
  match b with
  | NoBody | Body JNull =>
      inl (Unprocessable [ missing_error [JStr (lit "body")] JNull ])
  | Raw text =>
      inl (Unprocessable
             [ model_attributes_type_error [JStr (lit "body")] (input_bytes text) ])
  | Malformed pos error => inl (Unprocessable [ json_invalid_error pos error ])
  | Undecodable e => inl (BadRequest e)
  | Body (JObj members) =>
      match obj_get (lit "message") members with
      | None =>
          inl (Unprocessable
                 [ missing_error [JStr (lit "body"); JStr (lit "message")] (JObj members) ])
      | Some (JStr s) => inr {| message := s |}
      | Some v =>
          inl (Unprocessable
                 [ string_type_error [JStr (lit "body"); JStr (lit "message")] v ])
      end
  | Body v =>
      inl (Unprocessable
             [ model_attributes_type_error [JStr (lit "body")] (input_value v) ])
  end.

(** ** The two route functions

    [ask_assistant] reads the module global [openai_client] when it
    runs; the global is passed in as it stands in the module's
    namespace ([None] while the name is unbound). *)

Definition global {S A} (name : str) (binding : option A) : M S A :=
  match binding with
  | Some v => ret v
  | None => raise (Exception (lit "NameError")
                      (lit "name '" ++ name ++ lit "' is not defined") None)
  end.

Definition health_check : M World json :=
  ret (JObj [ (lit "message", JStr (lit "Healthy")) ]).

Definition SYSTEM_PROMPT : str :=
  lit "You are the helpful AI assistant for an online Tic Tac Toe game. Answer rules, strategies, and give helpful, friendly advice for the game.".

Definition BAD_GATEWAY_DETAIL : str :=
  lit "Failed to get a response from the assistant. Please try again later.".

Definition ask_assistant (openai_client : option OpenAI) (request : AssistantRequest)
  : M World AssistantResponse :=
  try_except
    (client <- global (lit "openai_client") openai_client ;;
     response <- chat_completions_create client
        {| model := lit "gpt-3.5-turbo";
           messages :=
             [ [ (lit "role", lit "system"); (lit "content", SYSTEM_PROMPT) ];
               [ (lit "role", lit "user"); (lit "content", message request) ] ];
           max_tokens := 256;
           temperature := 0.7 |} ;;
     choice <- getitem (choices response) 0 ;;
     answer <- call_strip (content (choice_message choice)) ;;
     ret {| answer := answer |})
    (fun e =>
       raise (HTTPException HTTP_502_BAD_GATEWAY BAD_GATEWAY_DETAIL (Some e))).

(** ** The application object and the module's top level *)

Inductive Method : Type := GET | POST.

Inductive Endpoint : Type := health_check_endpoint | ask_assistant_endpoint.

Record Route : Type := {
  route_method : Method;
  route_path : str;
  route_endpoint : Endpoint
}.

Record CORSMiddleware : Type := {
  allow_origins : list str;
  allow_credentials : bool;
  allow_methods : list str;
  allow_headers : list str
}.

(** The application: its middleware stack and the routes the module
    registers. The documentation routes the framework adds by itself
    are not in this list; the router knows them as [framework_paths]. *)
Record FastAPI : Type := {
  user_middleware : list CORSMiddleware;
  routes : list Route
}.

(** The module's namespace while [main.py] is imported, with the
    process environment it reads and extends. *)
Record Globals : Type := {
  environ : gmap str str;
  app : option FastAPI;
  OPENAI_API_KEY : option str;
  openai_client : option OpenAI
}.

Definition fresh (environ0 : gmap str str) : Globals :=
  {| environ := environ0; app := None; OPENAI_API_KEY := None; openai_client := None |}.

Definition set_app (a : FastAPI) : M Globals unit :=
  fun g => (Return tt,
            {| environ := environ g; app := Some a;
               OPENAI_API_KEY := OPENAI_API_KEY g; openai_client := openai_client g |}).

Definition set_OPENAI_API_KEY (k : option str) : M Globals unit :=
  fun g => (Return tt,
            {| environ := environ g; app := app g;
               OPENAI_API_KEY := k; openai_client := openai_client g |}).

Definition set_openai_client (c : OpenAI) : M Globals unit :=
  fun g => (Return tt,
            {| environ := environ g; app := app g;
               OPENAI_API_KEY := OPENAI_API_KEY g; openai_client := Some c |}).

Definition get_app : M Globals FastAPI :=
  fun g => global (lit "app") (app g) g.

Definition add_middleware (mw : CORSMiddleware) : M Globals unit :=
  a <- get_app ;;
  set_app {| user_middleware := mw :: user_middleware a; routes := routes a |}.

(** The decorators [@app.get(path)] and [@app.post(path)]. *)
Definition add_route (m : Method) (path : str) (ep : Endpoint) : M Globals unit :=
  a <- get_app ;;
  set_app {| user_middleware := user_middleware a;
             routes := routes a ++
               [ {| route_method := m; route_path := path; route_endpoint := ep |} ] |}.

(** [load_dotenv()]: the variables of the [.env] file are added to the
    process environment; a variable that is already set keeps its
    value. No file is an empty [dotenv]. *)
Definition load_dotenv (dotenv : gmap str str) : M Globals unit :=
  fun g => (Return tt,
            {| environ := environ g ∪ dotenv; app := app g;
               OPENAI_API_KEY := OPENAI_API_KEY g; openai_client := openai_client g |}).

Definition os_getenv (name : str) : M Globals (option str) :=
  fun g => (Return (environ g !! name), g).

(** [openai.OpenAI(api_key=...)]: without a key the constructor raises. *)
Definition OpenAI_new {S} (key : option str) : M S OpenAI :=
  match key with
  | Some k => ret {| api_key := k |}
  | None => raise (Exception (lit "OpenAIError") (lit "api_key") None)
  end.

(** The statements of [main.py], in order. *)
Definition main (dotenv : gmap str str) : M Globals unit :=
  set_app {| user_middleware := []; routes := [] |} ;;;
  add_middleware {| allow_origins := [lit "*"]; allow_credentials := true;
                    allow_methods := [lit "*"]; allow_headers := [lit "*"] |} ;;;
  load_dotenv dotenv ;;;
  key <- os_getenv (lit "OPENAI_API_KEY") ;;
  set_OPENAI_API_KEY key ;;;
  (if negb (truthy key)
   then raise (RuntimeError
     (lit "OPENAI_API_KEY not set in environment. Please add it to your .env file."))
   else ret tt) ;;;
  client <- OpenAI_new key ;;
  set_openai_client client ;;;
  add_route GET (lit "/") health_check_endpoint ;;;
  add_route POST (lit "/assistant") ask_assistant_endpoint.

(** ** Serving requests

    A request is a [GET] or a [POST] with a path and a body; headers
    are not modelled beyond what [RequestBody] records of the content
    type. The limits of the interpreter (recursion depth, memory) are
    not modelled either. *)

Record Request : Type := {
  method : Method;
  path : str;
  body : RequestBody
}.

(** What a response carries: a JSON value, a plain text, one of the
    documentation pages the framework generates (its content is not
    modelled), or a redirection to another path. Headers are not
    modelled. *)
Inductive Content : Type :=
| JSONContent (v : json)
| PlainText (s : str)
| Documentation (page : str)
| Redirect (location : str).

Record Response : Type := { status : Z; response_content : Content }.

(** [JSONResponse(content, status_code)]: the content is rendered when
    the response is built, and rendering can raise. The exceptions
    are given by class and reason; their full text, which names the
    offending value and its position, is not modelled. *)
Definition JSONResponse {S} (status_code : Z) (content : json) : M S Response :=
  if negb (dumps_ok content)
  then raise (ValueError (lit "Out of range float values are not JSON compliant"))
  else if negb (encode_ok content)
  then raise (UnicodeEncodeError (lit "surrogates not allowed"))
  else ret {| status := status_code; response_content := JSONContent content |}.

(** Building the response that [r] describes. *)
Definition rendered {S} (r : Response) : M S Response :=
  match response_content r with
  | JSONContent v => JSONResponse (status r) v
  | _ => ret r
  end.

(** [jsonable_encoder] on the list of validation errors: bytes are
    decoded as UTF-8, which can raise; decoded values pass unchanged. *)
Definition jsonable_input {S} (i : ErrorInput) : M S json :=
  match i with
  | input_value v => ret v
  | input_bytes (Some text) => ret (JStr text)
  | input_bytes None => raise (UnicodeDecodeError (lit "utf-8"))
  end.

Definition jsonable_error {S} (e : ValidationError) : M S json :=
  input <- jsonable_input (err_input e) ;;
  ret (JObj ([ (lit "type", JStr (err_type e));
               (lit "loc", JArr (err_loc e));
               (lit "msg", JStr (err_msg e));
               (lit "input", input) ] ++
             match err_ctx e with
             | Some ctx => [ (lit "ctx", ctx) ]
             | None => []
             end)).

Fixpoint jsonable_errors {S} (errors : list ValidationError) : M S (list json) :=
  match errors with
  | [] => ret []
  | e :: errors' =>
      v <- jsonable_error e ;;
      vs <- jsonable_errors errors' ;;
      ret (v :: vs)
  end.

(** The framework's handler for a request that failed validation. An
    exception raised here is not handled again: it ends in a 500. *)
Definition request_validation_exception_handler {S} (errors : list ValidationError)
  : M S Response :=
  detail <- jsonable_errors errors ;;
  JSONResponse 422 (JObj [ (lit "detail", JArr detail) ]).

(** The framework's exception handlers: an [HTTPException] becomes a
    response with its status and [{"detail": detail}]; any other
    exception becomes a bare 500. Neither looks at [__cause__]. *)
Definition render_exception (e : exn) : Response :=
  match e with
  | HTTPException code detail _ =>
      {| status := code;
         response_content := JSONContent (JObj [ (lit "detail", JStr detail) ]) |}
  | Exception _ _ _ =>
      {| status := 500; response_content := PlainText (lit "Internal Server Error") |}
  end.

(** Around a route function and the rendering of its result. An
    exception raised while the result is rendered, after the function
    has returned, is no [HTTPException]: it ends in the bare 500. *)
Definition handle_exceptions (m : M World Response) : M World Response :=
  try_except m (fun e => rendered (render_exception e)).

(** How a rejected request is answered. *)
Definition reject (r : Rejection) : M World Response :=
  match r with
  | BadRequest e =>
      rendered (render_exception
                  (HTTPException 400 (lit "There was an error parsing the body") (Some e)))
  | Unprocessable errors => request_validation_exception_handler errors
  end.

(** [POST /assistant]: the body is validated against [AssistantRequest]
    first; only a valid request reaches [ask_assistant], whose result is
    serialised through [response_model=AssistantResponse] and rendered
    after the function has returned. *)
Definition assistant_route (g : Globals) (b : RequestBody) : M World Response :=
  match validate_AssistantRequest b with
  | inl rejection => reject rejection
  | inr request =>
      handle_exceptions
        (r <- ask_assistant (openai_client g) request ;;
         JSONResponse 200 (JObj [ (lit "answer", JStr (answer r)) ]))
  end.

(** [GET /]: no parameters, so nothing of the request is read. *)
Definition health_route : M World Response :=
  handle_exceptions
    (v <- health_check ;;
     JSONResponse 200 v).

#[global] Instance Method_eq_dec : EqDecision Method.
Proof. solve_decision. Defined.

Definition route_matches (req : Request) (r : Route) : bool :=
  bool_decide (route_path r = path req) && bool_decide (route_method r = method req).

Definition path_matches (req : Request) (r : Route) : bool :=
  bool_decide (route_path r = path req).

Definition not_found : Response :=
  {| status := 404;
     response_content := JSONContent (JObj [ (lit "detail", JStr (lit "Not Found")) ]) |}.

Definition method_not_allowed : Response :=
  {| status := 405;
     response_content :=
       JSONContent (JObj [ (lit "detail", JStr (lit "Method Not Allowed")) ]) |}.

(** The routes every application gets from the framework, all under
    [GET]: the schema and the documentation pages. *)
Definition framework_paths : list str :=
  [ lit "/openapi.json"; lit "/docs"; lit "/docs/oauth2-redirect"; lit "/redoc" ].

Definition known_path (a : FastAPI) (p : str) : bool :=
  existsb (fun r => bool_decide (route_path r = p)) (routes a) ||
  bool_decide (p ∈ framework_paths).

Fixpoint drop_slashes (p : str) : str :=
  match p with
  | 47%N :: p' => drop_slashes p'
  | _ => p
  end.

(** The path with its trailing slashes removed, or with one added if it
    has none. *)
Definition slash_toggled (p : str) : str :=
  match last p with
  | Some 47%N => rev (drop_slashes (rev p))
  | _ => p ++ [47%N]
  end.

(** The router: the route whose path and method match runs; a path
    that is registered under another method is answered 405; a path
    that would match with its trailing slash toggled is redirected to
    that path; anything else is answered 404. *)
Definition dispatch (g : Globals) (a : FastAPI) (req : Request) : M World Response :=
  match List.find (route_matches req) (routes a) with
  | Some r =>
      match route_endpoint r with
      | health_check_endpoint => health_route
      | ask_assistant_endpoint => assistant_route g (body req)
      end
  | None =>
      if existsb (path_matches req) (routes a)
      then ret method_not_allowed
      else if bool_decide (path req ∈ framework_paths)
      then match method req with
           | GET => ret {| status := 200; response_content := Documentation (path req) |}
           | POST => ret method_not_allowed
           end
      else if negb (bool_decide (path req = lit "/")) &&
              known_path a (slash_toggled (path req))
      then ret {| status := 307;
                  response_content := Redirect (slash_toggled (path req)) |}
      else ret not_found
  end.

(** The server process: it imports the module and serves [app] if the
    import returned; if the import raised, the process exits and no
    request is ever answered. *)
Inductive Process : Type :=
| Serving (g : Globals)
| Exited (e : exn) (g : Globals).

Definition start (environ0 dotenv : gmap str str) : Process :=
  match main dotenv (fresh environ0) with
  | (Return _, g) => Serving g
  | (Raise e, g) => Exited e g
  end.

Definition serve (p : Process) (req : Request) (w : World) : option (Response * World) :=
  match p with
  | Exited _ _ => None
  | Serving g =>
      match app g with
      | None => None
      | Some a =>
          match dispatch g a req w with
          | (Return r, w') => Some (r, w')
          | (Raise e, w') => Some (render_exception e, w')
          end
      end
  end.

(** The routes a process has registered. *)
Definition registered (p : Process) : list Route :=
  match p with
  | Serving g | Exited _ g => from_option routes [] (app g)
  end.

(** ** Vocabulary of the statements *)

Definition all_space (s : str) : bool := forallb isspace s.

(** What it means for [a] to be [text] with its leading and trailing
    white space removed: [a] sits in [text] between two runs of white
    space and neither starts nor ends with white space. *)
Definition trimmed (text a : str) : Prop :=
  (∃ l r, text = l ++ a ++ r ∧ all_space l = true ∧ all_space r = true) ∧
  (∀ c, head a = Some c → isspace c = false) ∧
  (∀ c, last a = Some c → isspace c = false).

Abbreviation KEY := (lit "OPENAI_API_KEY").

(** The application once every statement of the module has run. *)
Definition the_app : FastAPI :=
  {| user_middleware :=
       [ {| allow_origins := [lit "*"]; allow_credentials := true;
            allow_methods := [lit "*"]; allow_headers := [lit "*"] |} ];
     routes :=
       [ {| route_method := GET; route_path := lit "/";
            route_endpoint := health_check_endpoint |};
         {| route_method := POST; route_path := lit "/assistant";
            route_endpoint := ask_assistant_endpoint |} ] |}.

(** The call [ask_assistant] sends for a given client and message. *)
Definition sent (client : OpenAI) (msg : str) : Call :=
  {| call_api_key := api_key client;
     call_params :=
       {| model := lit "gpt-3.5-turbo";
          messages :=
            [ [ (lit "role", lit "system"); (lit "content", SYSTEM_PROMPT) ];
              [ (lit "role", lit "user"); (lit "content", msg) ] ];
          max_tokens := 256;
          temperature := 0.7 |} |}.

Definition logged (w : World) (c : Call) : World :=
  {| provider := provider w; outbound := outbound w ++ [c] |}.

Definition bad_gateway (cause : exn) : exn :=
  HTTPException 502 BAD_GATEWAY_DETAIL (Some cause).

Definition post_assistant (b : RequestBody) : Request :=
  {| method := POST; path := lit "/assistant"; body := b |}.

Definition get_root (b : RequestBody) : Request :=
  {| method := GET; path := lit "/"; body := b |}.

(** The [message] member of a request body, if the body is an object
    that has one. *)
Definition message_member (b : RequestBody) : option json :=
  match b with
  | Body (JObj members) => obj_get (lit "message") members
  | _ => None
  end.


Definition answer_response (a : str) : Response :=
  {| status := 200;
     response_content := JSONContent (JObj [ (lit "answer", JStr a) ]) |}.

Definition bad_gateway_response : Response :=
  {| status := 502;
     response_content :=
       JSONContent (JObj [ (lit "detail",
         JStr (lit "Failed to get a response from the assistant. Please try again later.")) ]) |}.

Definition healthy_response : Response :=
  {| status := 200;
     response_content := JSONContent (JObj [ (lit "message", JStr (lit "Healthy")) ]) |}.

Definition internal_server_error : Response :=
  {| status := 500; response_content := PlainText (lit "Internal Server Error") |}.

Definition bad_request : Response :=
  {| status := 400;
     response_content :=
       JSONContent (JObj [ (lit "detail",
         JStr (lit "There was an error parsing the body")) ]) |}.


(** A failed provider call: the call raised, or it returned a
    completion without any choice. *)
Definition call_failed (r : reply) : bool :=
  match r with
  | Failure _ => true
  | Completion c => match choices c with [] => true | _ :: _ => false end
  end.

(** A completion whose first choice carries [text]. *)
Definition first_choice (text : option str) (rest : list Choice) : reply :=
  Completion {| choices := {| choice_message := {| content := text |} |} :: rest |}.

(** Sample inputs. *)
Definition env_key : gmap str str := {[ KEY := lit "sk-test" ]}.
Definition dotenv_key : gmap str str := {[ KEY := lit "sk-from-file" ]}.
Definition world (r : reply) : World := {| provider := fun _ _ => r; outbound := [] |}.
Definition rules_question : list (str * json) :=
  [ (lit "message", JStr (lit "What are the rules of tic tac toe?")) ].
Definition timeout_error : exn :=
  Exception (lit "APITimeoutError") (lit "Request timed out.") None.
Definition auth_error : exn :=
  Exception (lit "AuthenticationError") (lit "Incorrect API key provided: sk-from-file") None.

(** The provider calls a request is expected to cause in a process
    configured with key [k]. *)
Definition expected_calls (k : str) (req : Request) : list Call :=
  match method req, message_member (body req) with
  | POST, Some (JStr msg) =>
      if decide (path req = lit "/assistant")
      then [ sent {| api_key := k |} msg ]
      else []
  | _, _ => []
  end.

(** ** Proof steps *)

(** Case analysis on what the provider replied: no choice, a first
    choice with a text, a first choice without one, or an exception. *)
Ltac reply_cases :=
  match goal with
  | |- context [provider ?w ?log ?c] =>
      destruct (provider w log c) as [[[|[[[?text|]]] ?rest]]|?e]; simpl
  end.

(** ** Properties of [strip] *)

Lemma lstrip_all_space l s : all_space l = true → lstrip (l ++ s) = lstrip s.
Proof.
  induction l as [|c l IH]; simpl; [done|].
  intros [Hc Hl]%andb_prop. by rewrite Hc, IH.
Qed.

Lemma lstrip_split s : ∃ l, s = l ++ lstrip s ∧ all_space l = true.
Proof.
  induction s as [|c s [l [Hs Hl]]]; simpl.
  - by exists [].
  - destruct (isspace c) eqn:Hc.
    + exists (c :: l). simpl. rewrite Hc, Hl. split; [by f_equal | done].
    + by exists [].
Qed.

Lemma lstrip_head s c : head (lstrip s) = Some c → isspace c = false.
Proof.
  induction s as [|d s IH]; simpl; [done|].
  destruct (isspace d) eqn:Hd; [done|].
  simpl. by intros [= <-].
Qed.

Lemma lstrip_fixed s : (∀ c, head s = Some c → isspace c = false) → lstrip s = s.
Proof. destruct s as [|c s]; simpl; [done|]. intros H. by rewrite (H c). Qed.

Lemma lstrip_nil s : all_space s = true → lstrip s = [].
Proof. intros H. rewrite <- (app_nil_r s). by rewrite lstrip_all_space. Qed.

Lemma all_space_rev s : all_space (rev s) = all_space s.
Proof.
  unfold all_space. induction s as [|c s IH]; simpl; [done|].
  rewrite forallb_app, IH. simpl. rewrite andb_true_r. apply andb_comm.
Qed.

Lemma head_rev (s : str) : head (rev s) = last s.
Proof.
  induction s as [|c s _] using rev_ind; [done|].
  by rewrite rev_unit, last_snoc.
Qed.

Lemma last_rev (s : str) : last (rev s) = head s.
Proof. by rewrite <- head_rev, rev_involutive. Qed.

Lemma rstrip_all_space s r : all_space r = true → rstrip (s ++ r) = rstrip s.
Proof.
  intros Hr. unfold rstrip. rewrite rev_app_distr, lstrip_all_space; [done|].
  by rewrite all_space_rev.
Qed.

Lemma rstrip_fixed s : (∀ c, last s = Some c → isspace c = false) → rstrip s = s.
Proof.
  intros H. unfold rstrip. rewrite lstrip_fixed, rev_involutive; [done|].
  intros c. rewrite head_rev. apply H.
Qed.

Lemma rstrip_split s : ∃ r, s = rstrip s ++ r ∧ all_space r = true.
Proof.
  destruct (lstrip_split (rev s)) as [l [Hs Hl]].
  exists (rev l). split; [|by rewrite all_space_rev].
  unfold rstrip. rewrite <- rev_app_distr, <- Hs. by rewrite rev_involutive.
Qed.

Lemma rstrip_last s c : last (rstrip s) = Some c → isspace c = false.
Proof. unfold rstrip. rewrite last_rev. apply lstrip_head. Qed.

(** Stripping the right end leaves a left end that is already clean. *)
Lemma rstrip_head s c :
  (∀ d, head s = Some d → isspace d = false) →
  head (rstrip s) = Some c → isspace c = false.
Proof.
  intros Hs Hc. destruct (rstrip_split s) as [r [Heq Hr]].
  destruct (rstrip s) as [|d t] eqn:Ht; [done|].
  simpl in Hc. injection Hc as ->. apply Hs. by rewrite Heq.
Qed.

Lemma strip_trimmed text : trimmed text (strip text).
Proof.
  unfold strip. split; [|split].
  - destruct (lstrip_split text) as [l [Hl Hls]].
    destruct (rstrip_split (lstrip text)) as [r [Hr Hrs]].
    exists l, r. by rewrite <- Hr, <- Hl.
  - intros c. apply rstrip_head. intros d. apply lstrip_head.
  - intros c. apply rstrip_last.
Qed.

Lemma trimmed_unique text a : trimmed text a → a = strip text.
Proof.
  intros [(l & r & -> & Hl & Hr) [Hhead Hlast]].
  unfold strip. rewrite lstrip_all_space by done.
  destruct a as [|c a].
  - simpl. rewrite lstrip_nil by done. done.
  - rewrite lstrip_fixed.
    + rewrite rstrip_all_space by done. by rewrite rstrip_fixed.
    + intros d [= <-]. by apply Hhead.
Qed.

Lemma strip_all_space text : all_space text = true → strip text = [].
Proof. intros H. unfold strip. by rewrite lstrip_nil. Qed.

(** ** Running the module: what [start] yields *)

Lemma start_with_key (environ0 dotenv : gmap str str) (k : str) :
  (environ0 ∪ dotenv) !! KEY = Some k → k ≠ [] →
  start environ0 dotenv =
    Serving {| environ := environ0 ∪ dotenv; app := Some the_app;
               OPENAI_API_KEY := Some k;
               openai_client := Some {| api_key := k |} |}.
Proof.
  intros Hk Hne. unfold start, main, bind, os_getenv; simpl.
  rewrite Hk. destruct k as [|c k]; [done|]. reflexivity.
Qed.

Lemma start_without_key (environ0 dotenv : gmap str str) :
  truthy ((environ0 ∪ dotenv) !! KEY) = false →
  start environ0 dotenv =
    Exited
      (RuntimeError
         (lit "OPENAI_API_KEY not set in environment. Please add it to your .env file."))
      {| environ := environ0 ∪ dotenv;
         app := Some {| user_middleware := user_middleware the_app; routes := [] |};
         OPENAI_API_KEY := (environ0 ∪ dotenv) !! KEY;
         openai_client := None |}.
Proof.
  intros Hk. unfold start, main, bind, os_getenv; simpl.
  destruct ((environ0 ∪ dotenv) !! KEY) as [[|c k]|] eqn:E; simpl in *; try done.
Qed.

(** A key that only the [.env] file provides is enough to start. *)
Lemma start_from_dotenv (environ0 dotenv : gmap str str) (k : str) :
  environ0 !! KEY = None → dotenv !! KEY = Some k → k ≠ [] →
  ∃ g, start environ0 dotenv = Serving g ∧ OPENAI_API_KEY g = Some k.
Proof.
  intros He Hd Hne. eexists. split.
  - apply (start_with_key _ _ k); [|done].
    rewrite lookup_union, He, Hd. done.
  - done.
Qed.

(** ** Running [ask_assistant] *)

Lemma ask_assistant_run (client : OpenAI) (request : AssistantRequest) (w : World) :
  ask_assistant (Some client) request w =
    let c := sent client (message request) in
    match provider w (outbound w) c with
    | Completion r =>
        match choices r with
        | ch :: _ =>
            match content (choice_message ch) with
            | Some text => (Return {| answer := strip text |}, logged w c)
            | None =>
                (Raise (bad_gateway
                   (AttributeError (lit "'NoneType' object has no attribute 'strip'"))),
                 logged w c)
            end
        | [] =>
            (Raise (bad_gateway (IndexError (lit "list index out of range"))),
             logged w c)
        end
    | Failure e => (Raise (bad_gateway e), logged w c)
    end.
Proof.
  unfold ask_assistant, try_except, bind, chat_completions_create, sent, logged; simpl.
  reply_cases; done.
Qed.

Lemma ask_assistant_unbound (request : AssistantRequest) (w : World) :
  ask_assistant None request w =
    (Raise (bad_gateway
       (Exception (lit "NameError") (lit "name 'openai_client' is not defined") None)), w).
Proof. reflexivity. Qed.

Lemma JSONResponse_answer {S} (a : str) (s : S) :
  JSONResponse 200 (JObj [ (lit "answer", JStr a) ]) s =
    if encodable a
    then (Return (answer_response a), s)
    else (Raise (UnicodeEncodeError (lit "surrogates not allowed")), s).
Proof.
  unfold JSONResponse, answer_response. cbn [dumps_ok forallb snd negb].
  replace (encode_ok (JObj [ (lit "answer", JStr a) ])) with (encodable a).
  - by destruct (encodable a).
  - cbn [encode_ok forallb fst snd]. by rewrite andb_true_r.
Qed.

Lemma validate_object (members : list (str * json)) (msg : str) :
  obj_get (lit "message") members = Some (JStr msg) →
  validate_AssistantRequest (Body (JObj members)) = inr {| message := msg |}.
Proof. intros H. unfold validate_AssistantRequest. by rewrite H. Qed.

Lemma validate_accepts (b : RequestBody) (request : AssistantRequest) :
  validate_AssistantRequest b = inr request ↔
  message_member b = Some (JStr (message request)).
Proof.
  destruct request as [msg]. simpl.
  destruct b as [| | | |[]]; simpl; try (split; discriminate).
  destruct (obj_get _ _) as [[]|]; split; intros; simplify_eq; done.
Qed.


(** ** Turning a request away *)

Lemma jsonable_error_run {S} (e : ValidationError) (s : S) :
  (∃ v, jsonable_error e s = (Return v, s)) ∨
  (∃ cls msg cause, jsonable_error e s = (Raise (Exception cls msg cause), s)).
Proof.
  unfold jsonable_error, bind, jsonable_input.
  destruct (err_input e) as [v|[text|]];
    [left; by eexists | left; by eexists | right; by do 3 eexists].
Qed.

Lemma jsonable_errors_run {S} (errors : list ValidationError) (s : S) :
  (∃ vs, jsonable_errors errors s = (Return vs, s)) ∨
  (∃ cls msg cause, jsonable_errors errors s = (Raise (Exception cls msg cause), s)).
Proof.
  induction errors as [|e errors IH]; [left; by eexists|].
  cbn [jsonable_errors]. unfold bind.
  destruct (jsonable_error_run e s) as [[v ->]|(cls & msg & cause & ->)];
    [|right; by do 3 eexists].
  destruct IH as [[vs ->]|(cls & msg & cause & ->)];
    [left; by eexists | right; by do 3 eexists].
Qed.



(** A rejection is answered 400 or 422 when its response can be built;
    an exception raised while building it is not an [HTTPException]. *)
Lemma reject_outcome (rejection : Rejection) (w : World) :
  (∃ r, reject rejection w = (Return r, w) ∧
        status r = match rejection with BadRequest _ => 400 | Unprocessable _ => 422 end) ∨
  (∃ cls msg cause, reject rejection w = (Raise (Exception cls msg cause), w)).
Proof.
  destruct rejection as [e|errors]; [left; by eexists|].
  unfold reject, request_validation_exception_handler, bind.
  destruct (jsonable_errors_run errors w) as [[vs ->]|(cls & msg & cause & ->)];
    [|right; by do 3 eexists].
  unfold JSONResponse.
  destruct (dumps_ok _); [destruct (encode_ok _)|]; simpl;
    [left; by eexists | right; by do 3 eexists | right; by do 3 eexists].
Qed.





(** ** The endpoints *)

Lemma dispatch_assistant (g : Globals) (b : RequestBody) (w : World) :
  dispatch g the_app (post_assistant b) w = assistant_route g b w.
Proof. reflexivity. Qed.

Lemma assistant_route_rejected
  (g : Globals) (b : RequestBody) (rejection : Rejection) (w : World) :
  validate_AssistantRequest b = inl rejection →
  assistant_route g b w = reject rejection w.
Proof. intros Hv. unfold assistant_route. by rewrite Hv. Qed.

Lemma assistant_route_accepted
  (g : Globals) (b : RequestBody) (request : AssistantRequest) (w : World) :
  validate_AssistantRequest b = inr request →
  assistant_route g b w =
    match ask_assistant (openai_client g) request w with
    | (Return r, w') =>
        (Return (if encodable (answer r)
                 then answer_response (answer r)
                 else internal_server_error), w')
    | (Raise e, w') => rendered (render_exception e) w'
    end.
Proof.
  intros Hv. unfold assistant_route. rewrite Hv.
  unfold handle_exceptions, try_except, bind.
  destruct (ask_assistant _ _ _) as [[r|e] w']; [|done].
  rewrite JSONResponse_answer. by destruct (encodable (answer r)).
Qed.

Section Started.

Variables (environ0 dotenv : gmap str str) (k : str).
Hypothesis Hkey : (environ0 ∪ dotenv) !! KEY = Some k.
Hypothesis Hne : k ≠ [].

Local Abbreviation client := ({| api_key := k |}).

Lemma serve_health (b : RequestBody) (w : World) :
  serve (start environ0 dotenv) (get_root b) w = Some (healthy_response, w).
Proof. by rewrite (start_with_key _ _ k). Qed.

Lemma serve_rejected (b : RequestBody) (rejection : Rejection) (w : World) :
  validate_AssistantRequest b = inl rejection →
  serve (start environ0 dotenv) (post_assistant b) w =
    match reject rejection w with
    | (Return r, _) => Some (r, w)
    | (Raise _, _) => Some (internal_server_error, w)
    end.
Proof.
  intros Hv. rewrite (start_with_key _ _ k) by done.
  unfold serve. cbn [app]. rewrite dispatch_assistant.
  rewrite (assistant_route_rejected _ _ _ _ Hv).
  destruct (reject_outcome rejection w) as [(r & -> & _)|(cls & msg & cause & ->)]; done.
Qed.

Variables (members : list (str * json)) (msg : str) (w : World).
Hypothesis Hmsg : obj_get (lit "message") members = Some (JStr msg).

Local Abbreviation request := ({| message := msg |}).
Local Abbreviation call := (sent client msg).

(** The answer to a valid request, by what the provider replied. *)
Lemma serve_valid :
  serve (start environ0 dotenv) (post_assistant (Body (JObj members))) w =
    Some (match provider w (outbound w) call with
          | Completion r =>
              match choices r with
              | ch :: _ =>
                  match content (choice_message ch) with
                  | Some text =>
                      if encodable (strip text)
                      then answer_response (strip text)
                      else internal_server_error
                  | None => bad_gateway_response
                  end
              | [] => bad_gateway_response
              end
          | Failure _ => bad_gateway_response
          end, logged w call).
Proof.
  rewrite (start_with_key _ _ k) by done.
  unfold serve. cbn [app]. rewrite dispatch_assistant.
  rewrite (assistant_route_accepted _ _ request) by by apply validate_object.
  cbn [openai_client]. rewrite ask_assistant_run. cbn zeta. cbn [message].
  reply_cases; done.
Qed.

(** C1: for a valid request, when the provider returns a completion
    whose first choice carries a text, [ask_assistant] returns an
    [AssistantResponse] whose [answer] is that text stripped, and the
    stripped text is the text with exactly its leading and trailing
    white space removed. The framework then answers 200 with that
    answer, unless the answer holds a lone surrogate and cannot be
    encoded, in which case the response is a 500. *)
Theorem answer_is_first_choice_stripped (text : str) (rest : list Choice) :
  provider w (outbound w) call = first_choice (Some text) rest →
  ask_assistant (Some client) request w =
    (Return {| answer := strip text |}, logged w call) ∧
  serve (start environ0 dotenv) (post_assistant (Body (JObj members))) w =
    Some (if encodable (strip text)
          then answer_response (strip text)
          else internal_server_error, logged w call) ∧
  trimmed text (strip text).
Proof.
  intros Hp. split; [|split; [|apply strip_trimmed]].
  - rewrite ask_assistant_run. simpl. by rewrite Hp.
  - rewrite serve_valid. by rewrite Hp.
Qed.

Lemma ask_failed :
  call_failed (provider w (outbound w) call) = true →
  ∃ cause, ask_assistant (Some client) request w =
    (Raise (bad_gateway cause), logged w call).
Proof.
  rewrite ask_assistant_run. simpl.
  destruct (provider w (outbound w) call) as [[[|ch rest]]|e]; simpl;
    intros Hf; try discriminate; by eexists.
Qed.

Lemma serve_failed :
  call_failed (provider w (outbound w) call) = true →
  serve (start environ0 dotenv) (post_assistant (Body (JObj members))) w =
    Some (bad_gateway_response, logged w call).
Proof.
  rewrite serve_valid.
  by destruct (provider w (outbound w) call) as [[[|ch rest]]|e].
Qed.

Lemma ask_outcomes :
  (∃ a, ask_assistant (Some client) request w =
     (Return {| answer := a |}, logged w call)) ∨
  (∃ cause, ask_assistant (Some client) request w =
     (Raise (bad_gateway cause), logged w call)).
Proof.
  rewrite ask_assistant_run. simpl.
  reply_cases; [right | left | right | right]; by eexists.
Qed.

(** C2: when the provider call fails (it raises, whatever the
    exception, or it returns no choice), [ask_assistant] raises the
    one [HTTPException] with status 502 and the fixed detail, and the
    endpoint answers with it; and whatever the provider does,
    [ask_assistant] has two outcomes only: it returns an
    [AssistantResponse], or it raises that same 502. *)
Theorem provider_failure_is_bad_gateway :
  (call_failed (provider w (outbound w) call) = true →
     (∃ cause, ask_assistant (Some client) request w =
        (Raise (HTTPException 502
           (lit "Failed to get a response from the assistant. Please try again later.")
           (Some cause)), logged w call)) ∧
     serve (start environ0 dotenv) (post_assistant (Body (JObj members))) w =
       Some (bad_gateway_response, logged w call)) ∧
  ((∃ a, ask_assistant (Some client) request w =
       (Return {| answer := a |}, logged w call)) ∨
   (∃ cause, ask_assistant (Some client) request w =
       (Raise (HTTPException 502
          (lit "Failed to get a response from the assistant. Please try again later.")
          (Some cause)), logged w call))).
Proof.
  split; [|apply ask_outcomes].
  intros Hf. split; [by apply ask_failed | by apply serve_failed].
Qed.

(** C9: when the provider returns a completion whose first choice has
    no text ([content] is [None]), stripping it raises inside the
    [try] block, so the request ends in the 502 error and no success
    response is produced. *)
Theorem null_content_is_bad_gateway (rest : list Choice) :
  provider w (outbound w) call = first_choice None rest →
  ask_assistant (Some client) request w =
    (Raise (HTTPException 502
       (lit "Failed to get a response from the assistant. Please try again later.")
       (Some (AttributeError (lit "'NoneType' object has no attribute 'strip'")))),
     logged w call) ∧
  serve (start environ0 dotenv) (post_assistant (Body (JObj members))) w =
    Some (bad_gateway_response, logged w call).
Proof.
  intros Hp. rewrite serve_valid, ask_assistant_run. simpl.
  by rewrite Hp.
Qed.

(** C10: when the first choice's text is empty or white space only,
    the endpoint still answers 200, with the empty string as
    [answer]. *)
Theorem blank_content_gives_empty_answer (text : str) (rest : list Choice) :
  all_space text = true →
  provider w (outbound w) call = first_choice (Some text) rest →
  ask_assistant (Some client) request w = (Return {| answer := [] |}, logged w call) ∧
  serve (start environ0 dotenv) (post_assistant (Body (JObj members))) w =
    Some ({| status := 200;
             response_content := JSONContent (JObj [ (lit "answer", JStr []) ]) |},
          logged w call).
Proof.
  intros Hs Hp. rewrite serve_valid, ask_assistant_run. simpl.
  rewrite Hp. simpl. by rewrite strip_all_space.
Qed.

End Started.

(** ** Failures reveal nothing *)

(** C3: the answer to a request whose provider call failed is the fixed
    502 response, a constant in which neither the exception, nor the
    configured key, nor the message occurs; any two failing runs, with
    different keys, messages, providers and exceptions, get the very
    same response. *)
Theorem failure_response_is_constant
  (environ1 dotenv1 environ2 dotenv2 : gmap str str) (k1 k2 : str)
  (members1 members2 : list (str * json)) (msg1 msg2 : str) (w1 w2 : World) :
  (environ1 ∪ dotenv1) !! KEY = Some k1 → k1 ≠ [] →
  (environ2 ∪ dotenv2) !! KEY = Some k2 → k2 ≠ [] →
  obj_get (lit "message") members1 = Some (JStr msg1) →
  obj_get (lit "message") members2 = Some (JStr msg2) →
  call_failed (provider w1 (outbound w1) (sent {| api_key := k1 |} msg1)) = true →
  call_failed (provider w2 (outbound w2) (sent {| api_key := k2 |} msg2)) = true →
  fst <$> serve (start environ1 dotenv1) (post_assistant (Body (JObj members1))) w1 =
    Some bad_gateway_response ∧
  fst <$> serve (start environ2 dotenv2) (post_assistant (Body (JObj members2))) w2 =
    fst <$> serve (start environ1 dotenv1) (post_assistant (Body (JObj members1))) w1.
Proof.
  intros Hk1 Hn1 Hk2 Hn2 Hm1 Hm2 Hf1 Hf2.
  rewrite (serve_failed _ _ _ Hk1 Hn1 _ _ _ Hm1 Hf1).
  rewrite (serve_failed _ _ _ Hk2 Hn2 _ _ _ Hm2 Hf2). done.
Qed.

(** The exception [ask_assistant] raises does keep the provider's
    exception as its cause; the rendering drops it. *)
Lemma render_ignores_cause (code : Z) (detail : str) (c1 c2 : option exn) :
  render_exception (HTTPException code detail c1) =
  render_exception (HTTPException code detail c2).
Proof. reflexivity. Qed.

(** ** The schema boundary *)




(** ** Start-up *)

(** C6: when, once the [.env] file is loaded, the environment has no
    [OPENAI_API_KEY] or an empty one, importing the module raises
    [RuntimeError]: the process exits, at that point no route has been
    registered, and no request is ever answered, the health check
    included. *)
Theorem missing_key_aborts_startup (environ0 dotenv : gmap str str) :
  (environ0 ∪ dotenv) !! KEY = None ∨ (environ0 ∪ dotenv) !! KEY = Some [] →
  (∃ g, start environ0 dotenv =
     Exited
       (RuntimeError
          (lit "OPENAI_API_KEY not set in environment. Please add it to your .env file."))
       g) ∧
  registered (start environ0 dotenv) = [] ∧
  ∀ req w, serve (start environ0 dotenv) req w = None.
Proof.
  intros H.
  assert (Hf : truthy ((environ0 ∪ dotenv) !! KEY) = false)
    by (destruct H as [-> | ->]; done).
  rewrite (start_without_key _ _ Hf). split; [by eexists | done].
Qed.

(** ** The health route *)

(** C7: [health_check] returns the fixed payload and touches nothing;
    in a started process, [GET /] is answered 200 with exactly
    [{"message": "Healthy"}] whatever the request carries and whatever
    the provider would do, and no call goes to the provider. *)
Theorem health_check_is_constant
  (environ0 dotenv : gmap str str) (k : str) (b : RequestBody) (w : World) :
  (environ0 ∪ dotenv) !! KEY = Some k → k ≠ [] →
  health_check w = (Return (JObj [ (lit "message", JStr (lit "Healthy")) ]), w) ∧
  serve (start environ0 dotenv) (get_root b) w =
    Some ({| status := 200;
             response_content :=
               JSONContent (JObj [ (lit "message", JStr (lit "Healthy")) ]) |}, w).
Proof.
  intros Hk Hne. split; [done|]. by rewrite (serve_health _ _ k).
Qed.

(** ** The parameters of the provider call *)

(** C8: every run of [ask_assistant] adds exactly one call to the log,
    made with the model ["gpt-3.5-turbo"], 256 output tokens at most,
    temperature 0.7, and two messages: the fixed system instruction,
    then the caller's message under the user role, unchanged. Only
    that last content depends on the request. *)
Theorem provider_call_parameters_are_fixed
  (client : OpenAI) (request : AssistantRequest) (w : World) :
  outbound (snd (ask_assistant (Some client) request w)) =
    outbound w ++
      [ {| call_api_key := api_key client;
           call_params :=
             {| model := lit "gpt-3.5-turbo";
                messages :=
                  [ [ (lit "role", lit "system");
                      (lit "content",
                       lit "You are the helpful AI assistant for an online Tic Tac Toe game. Answer rules, strategies, and give helpful, friendly advice for the game.") ];
                    [ (lit "role", lit "user"); (lit "content", message request) ] ];
                max_tokens := 256;
                temperature := 0.7 |} |} ].
Proof.
  rewrite ask_assistant_run. simpl.
  reply_cases; reflexivity.
Qed.

(** ** The statements at sample inputs *)

Lemma env_key_lookup : (env_key ∪ ∅) !! KEY = Some (lit "sk-test").
Proof. reflexivity. Defined.

Lemma dotenv_key_lookup : (∅ ∪ dotenv_key) !! KEY = Some (lit "sk-from-file").
Proof. reflexivity. Defined.

Lemma rules_question_message :
  obj_get (lit "message") rules_question =
    Some (JStr (lit "What are the rules of tic tac toe?")).
Proof. reflexivity. Defined.

(** The scenario of the specification: the text comes back trimmed. *)
Lemma answer_is_first_choice_stripped_witness :
  serve (start env_key ∅) (post_assistant (Body (JObj rules_question)))
        (world (first_choice (Some (lit "  Tic tac toe is played on a 3x3 grid...  ")) [])) =
    Some (answer_response (lit "Tic tac toe is played on a 3x3 grid..."),
          {| provider := fun _ _ =>
               first_choice (Some (lit "  Tic tac toe is played on a 3x3 grid...  ")) [];
             outbound :=
               [ sent {| api_key := lit "sk-test" |}
                      (lit "What are the rules of tic tac toe?") ] |}).
Proof.
  refine (proj1 (proj2 (answer_is_first_choice_stripped
    env_key ∅ (lit "sk-test") env_key_lookup _ rules_question _
    (world (first_choice (Some (lit "  Tic tac toe is played on a 3x3 grid...  ")) []))
    rules_question_message _ [] eq_refl))).
  discriminate.
Defined.

(** A timeout of the provider call ends in the fixed 502. *)
Lemma provider_failure_is_bad_gateway_witness :
  serve (start env_key ∅) (post_assistant (Body (JObj rules_question)))
        (world (Failure timeout_error)) =
    Some (bad_gateway_response,
          logged (world (Failure timeout_error))
                 (sent {| api_key := lit "sk-test" |}
                       (lit "What are the rules of tic tac toe?"))).
Proof.
  refine (proj2 (proj1 (provider_failure_is_bad_gateway
    env_key ∅ (lit "sk-test") env_key_lookup _ rules_question _
    (world (Failure timeout_error)) rules_question_message) eq_refl)).
  discriminate.
Defined.

(** A timeout under one key and an authentication failure that quotes
    another key get the same answer. *)
Lemma failure_response_is_constant_witness :
  fst <$> serve (start ∅ dotenv_key)
            (post_assistant (Body (JObj [ (lit "message", JStr (lit "hint?")) ])))
            (world (Failure auth_error)) =
  fst <$> serve (start env_key ∅) (post_assistant (Body (JObj rules_question)))
            (world (Failure timeout_error)).
Proof.
  refine (proj2 (failure_response_is_constant
    env_key ∅ ∅ dotenv_key (lit "sk-test") (lit "sk-from-file")
    rules_question [ (lit "message", JStr (lit "hint?")) ] _ _
    (world (Failure timeout_error)) (world (Failure auth_error))
    env_key_lookup _ dotenv_key_lookup _ rules_question_message eq_refl eq_refl eq_refl));
    discriminate.
Defined.





(** No variable and no [.env] file: nothing is served. *)
Lemma missing_key_aborts_startup_witness :
  registered (start ∅ ∅) = [] ∧
  ∀ req w, serve (start ∅ ∅) req w = None.
Proof.
  exact (proj2 (missing_key_aborts_startup ∅ ∅ (or_introl eq_refl))).
Defined.

(** The health check while the provider is failing. *)
Lemma health_check_is_constant_witness :
  serve (start env_key ∅) (get_root NoBody) (world (Failure timeout_error)) =
    Some (healthy_response, world (Failure timeout_error)).
Proof.
  refine (proj2 (health_check_is_constant
    env_key ∅ (lit "sk-test") NoBody (world (Failure timeout_error)) env_key_lookup _)).
  discriminate.
Defined.

Lemma null_content_is_bad_gateway_witness :
  serve (start env_key ∅) (post_assistant (Body (JObj rules_question)))
        (world (first_choice None [])) =
    Some (bad_gateway_response,
          logged (world (first_choice None []))
                 (sent {| api_key := lit "sk-test" |}
                       (lit "What are the rules of tic tac toe?"))).
Proof.
  refine (proj2 (null_content_is_bad_gateway
    env_key ∅ (lit "sk-test") env_key_lookup _ rules_question _
    (world (first_choice None [])) rules_question_message [] eq_refl)).
  discriminate.
Defined.

(** A reply of a space, a tab, a line feed and a no-break space. *)
Lemma blank_content_gives_empty_answer_witness :
  serve (start env_key ∅) (post_assistant (Body (JObj rules_question)))
        (world (first_choice (Some [32; 9; 10; 160]%N) [])) =
    Some (answer_response [],
          logged (world (first_choice (Some [32; 9; 10; 160]%N) []))
                 (sent {| api_key := lit "sk-test" |}
                       (lit "What are the rules of tic tac toe?"))).
Proof.
  refine (proj2 (blank_content_gives_empty_answer
    env_key ∅ (lit "sk-test") env_key_lookup _ rules_question _
    (world (first_choice (Some [32; 9; 10; 160]%N) []))
    rules_question_message [32; 9; 10; 160]%N [] eq_refl eq_refl)).
  discriminate.
Defined.

(** * Further properties of the module *)

(** ** Routing and the provider *)

Section Routing.

Variables (environ0 dotenv : gmap str str) (k : str).
Hypothesis Hkey : (environ0 ∪ dotenv) !! KEY = Some k.
Hypothesis Hne : k ≠ [].

Lemma serve_root (req : Request) (w : World) :
  path req = lit "/" →
  serve (start environ0 dotenv) req w =
    match method req with
    | GET => Some (healthy_response, w)
    | POST => Some (method_not_allowed, w)
    end.
Proof.
  destruct req as [m p b]; simpl. intros ->.
  rewrite (start_with_key _ _ k) by done. by destruct m.
Qed.

Lemma serve_assistant_path (req : Request) (w : World) :
  path req = lit "/assistant" →
  serve (start environ0 dotenv) req w =
    match method req with
    | GET => Some (method_not_allowed, w)
    | POST => serve (start environ0 dotenv) (post_assistant (body req)) w
    end.
Proof.
  destruct req as [m p b]; simpl. intros ->.
  destruct m; [|done]. by rewrite (start_with_key _ _ k).
Qed.

(** On any other path no route function runs: the framework answers by
    itself and the world is unchanged. *)
Lemma serve_elsewhere (req : Request) (w : World) :
  path req ≠ lit "/" → path req ≠ lit "/assistant" →
  ∃ r, serve (start environ0 dotenv) req w = Some (r, w).
Proof.
  destruct req as [m p b]; simpl. intros Hroot Hassistant.
  rewrite (start_with_key _ _ k) by done.
  unfold serve, dispatch, route_matches, path_matches. cbn [app routes the_app path method].
  cbn [List.find existsb route_path route_method].
  rewrite (bool_decide_eq_false_2 (lit "/" = p)) by congruence.
  rewrite (bool_decide_eq_false_2 (lit "/assistant" = p)) by congruence.
  cbn [andb orb].
  destruct (bool_decide (p ∈ framework_paths)); [destruct m; by eexists|].
  destruct (negb _ && _); by eexists.
Qed.

(** X1: every request to a started process is answered, and only a
    [POST /assistant] whose body carries a string [message] sends a
    call to the provider: exactly one, made with the configured key
    and that message. *)
Theorem provider_called_only_for_valid_post (req : Request) (w : World) :
  ∃ r w',
    serve (start environ0 dotenv) req w = Some (r, w') ∧
    provider w' = provider w ∧
    outbound w' = outbound w ++ expected_calls k req.
Proof.
  unfold expected_calls.
  destruct (decide (path req = lit "/")) as [Hroot|Hroot].
  - rewrite (serve_root _ _ Hroot), Hroot.
    destruct (method req); do 2 eexists; (split; [done|]); split; try done;
      simpl; rewrite ?app_nil_r; try done.
    destruct (message_member (body req)) as [[]|]; simpl; by rewrite app_nil_r.
  - destruct (decide (path req = lit "/assistant")) as [Ha|Ha].
    + rewrite (serve_assistant_path _ _ Ha). destruct (method req).
      * do 2 eexists. split; [done|]. by rewrite app_nil_r.
      * destruct (validate_AssistantRequest (body req)) as [rejection|[msg]] eqn:Hv.
        -- rewrite (serve_rejected _ _ k Hkey Hne _ _ _ Hv).
           assert (Hm : ∀ s, message_member (body req) ≠ Some (JStr s)).
           { intros s Hm. apply (validate_accepts _ {| message := s |}) in Hm.
             congruence. }
           destruct (reject rejection w) as [[r|e] w'];
             do 2 eexists; (split; [done|]); (split; [done|]);
             destruct (message_member (body req)) as [[| | | |s| |]|];
             rewrite ?app_nil_r; try done; by destruct (Hm s).
        -- apply validate_accepts in Hv. simpl in Hv.
           destruct (body req) as [| | | |[| | | | | |members]]; try discriminate.
           simpl in Hv. rewrite (serve_valid _ _ k Hkey Hne _ _ _ Hv).
           simpl. rewrite Hv. by do 2 eexists.
    + destruct (serve_elsewhere req w Hroot Ha) as [r ->].
      do 2 eexists. split; [done|]. split; [done|].
      destruct (method req), (message_member (body req)) as [[]|];
        rewrite ?decide_False by done; by rewrite app_nil_r.
Qed.

(** X2: the status of the answer to a valid [POST /assistant] is
    decided by the provider's reply: 200 when the first choice carries
    a text whose stripped form can be encoded, 500 when it carries a
    text whose stripped form holds a lone surrogate, and 502 in every
    other case (an exception, no choice, or a first choice without
    text). *)
Theorem valid_post_status_by_reply
  (members : list (str * json)) (msg : str) (w : World) :
  obj_get (lit "message") members = Some (JStr msg) →
  ∃ r,
    serve (start environ0 dotenv) (post_assistant (Body (JObj members))) w =
      Some (r, logged w (sent {| api_key := k |} msg)) ∧
    status r =
      match provider w (outbound w) (sent {| api_key := k |} msg) with
      | Completion {| choices := {| choice_message := {| content := Some text |} |} :: _ |} =>
          if encodable (strip text) then 200 else 500
      | _ => 502
      end.
Proof.
  intros Hm. rewrite (serve_valid _ _ k Hkey Hne _ _ _ Hm).
  eexists. split; [done|].
  reply_cases; try done. by destruct (encodable (strip text)).
Qed.

(** X3: a registered path asked with the other method is answered 405; no
    route function runs and nothing is sent to the provider. *)
Theorem wrong_method_is_405 (req : Request) (w : World) :
  (path req = lit "/" ∧ method req = POST) ∨
  (path req = lit "/assistant" ∧ method req = GET) →
  serve (start environ0 dotenv) req w = Some (method_not_allowed, w).
Proof.
  intros [[Hp Hm]|[Hp Hm]].
  - by rewrite (serve_root _ _ Hp), Hm.
  - by rewrite (serve_assistant_path _ _ Hp), Hm.
Qed.

End Routing.

(** ** Start-up, in full *)

(** X4: the import returns exactly when the environment, once [.env] is
    loaded, holds a non-empty [OPENAI_API_KEY]; the module then has its
    two routes, and the client holds that very key. No other check is
    made on the key. *)
Theorem start_serving_iff (environ0 dotenv : gmap str str) (g : Globals) :
  start environ0 dotenv = Serving g ↔
  ∃ k, (environ0 ∪ dotenv) !! KEY = Some k ∧ k ≠ [] ∧
       g = {| environ := environ0 ∪ dotenv; app := Some the_app;
              OPENAI_API_KEY := Some k;
              openai_client := Some {| api_key := k |} |}.
Proof.
  split.
  - destruct (truthy ((environ0 ∪ dotenv) !! KEY)) eqn:Ht.
    + destruct ((environ0 ∪ dotenv) !! KEY) as [[|c k]|] eqn:Hk; try done.
      rewrite (start_with_key _ _ (c :: k)) by done.
      intros [= <-]. by exists (c :: k).
    + by rewrite (start_without_key _ _ Ht).
  - intros (k & Hk & Hne & ->). by apply start_with_key.
Qed.

(** X5: a value of [OPENAI_API_KEY] already in the process environment
    takes precedence over the [.env] file: a non-empty one is the key
    the client is built with, and an empty one stops the import even
    if the file holds a key. *)
Theorem process_environment_takes_precedence
  (environ0 dotenv : gmap str str) (k : str) :
  environ0 !! KEY = Some k →
  (k ≠ [] →
   ∃ g, start environ0 dotenv = Serving g ∧
        openai_client g = Some {| api_key := k |}) ∧
  (k = [] → ∃ e g, start environ0 dotenv = Exited e g).
Proof.
  intros He.
  assert (Hk : (environ0 ∪ dotenv) !! KEY = Some k)
    by (by rewrite lookup_union, He; destruct (dotenv !! KEY)).
  split.
  - intros Hne. eexists. split; [by apply (start_with_key _ _ k)|done].
  - intros ->. do 2 eexists. apply start_without_key. by rewrite Hk.
Qed.

(** ** What the answer depends on *)

(** X6: the answer to a valid request is determined by the provider's reply
    alone: two processes with different keys, asked different things,
    give the same response whenever their providers reply the same. *)
Theorem response_determined_by_reply
  (environ1 dotenv1 environ2 dotenv2 : gmap str str) (k1 k2 : str)
  (members1 members2 : list (str * json)) (msg1 msg2 : str) (w1 w2 : World) :
  (environ1 ∪ dotenv1) !! KEY = Some k1 → k1 ≠ [] →
  (environ2 ∪ dotenv2) !! KEY = Some k2 → k2 ≠ [] →
  obj_get (lit "message") members1 = Some (JStr msg1) →
  obj_get (lit "message") members2 = Some (JStr msg2) →
  provider w1 (outbound w1) (sent {| api_key := k1 |} msg1) =
    provider w2 (outbound w2) (sent {| api_key := k2 |} msg2) →
  fst <$> serve (start environ1 dotenv1) (post_assistant (Body (JObj members1))) w1 =
  fst <$> serve (start environ2 dotenv2) (post_assistant (Body (JObj members2))) w2.
Proof.
  intros Hk1 Hn1 Hk2 Hn2 Hm1 Hm2 Hp.
  rewrite (serve_valid _ _ _ Hk1 Hn1 _ _ _ Hm1), (serve_valid _ _ _ Hk2 Hn2 _ _ _ Hm2).
  simpl. by rewrite Hp.
Qed.

(** X7: when the provider call raises, the [HTTPException] that
    [ask_assistant] raises carries the provider's exception as its
    cause, and the response made from it is the fixed 502. *)
Theorem failure_keeps_cause
  (client : OpenAI) (request : AssistantRequest) (w : World) (e : exn) :
  provider w (outbound w) (sent client (message request)) = Failure e →
  ∃ w', ask_assistant (Some client) request w =
          (Raise (HTTPException 502 BAD_GATEWAY_DETAIL (Some e)), w') ∧
        render_exception (HTTPException 502 BAD_GATEWAY_DETAIL (Some e)) =
          bad_gateway_response.
Proof.
  intros Hp. rewrite ask_assistant_run. simpl. rewrite Hp. by eexists.
Qed.

(** ** What a 200 answer looks like *)

Lemma strip_idempotent (s : str) : strip (strip s) = strip s.
Proof.
  symmetry. apply trimmed_unique.
  destruct (strip_trimmed s) as (_ & Hhead & Hlast).
  split; [|done]. exists [], []. by rewrite app_nil_r.
Qed.

Lemma strip_nil_iff (s : str) : strip s = [] ↔ all_space s = true.
Proof.
  split; [|apply strip_all_space].
  intros Hs. destruct (strip_trimmed s) as ((l & r & Heq & Hl & Hr) & _).
  rewrite Hs in Heq. simpl in Heq. subst s.
  unfold all_space in *. by rewrite forallb_app, Hl, Hr.
Qed.

(** X8: [strip] is trimming and nothing else: [a] is [text] without its
    leading and trailing white space exactly when [a = strip text]. *)
Theorem strip_is_trimming (text a : str) : trimmed text a ↔ a = strip text.
Proof.
  split; [apply trimmed_unique|]. intros ->. apply strip_trimmed.
Qed.

Section Answers.

Variables (environ0 dotenv : gmap str str) (k : str).
Hypothesis Hkey : (environ0 ∪ dotenv) !! KEY = Some k.
Hypothesis Hne : k ≠ [].
Variables (members : list (str * json)) (msg : str) (w : World).
Hypothesis Hmsg : obj_get (lit "message") members = Some (JStr msg).

(** X9: every answer the endpoint returns with a 200 is already stripped:
    it neither starts nor ends with white space, and stripping it again
    changes nothing. *)
Theorem answers_are_stripped (a : str) (w' : World) :
  serve (start environ0 dotenv) (post_assistant (Body (JObj members))) w =
    Some (answer_response a, w') →
  strip a = a ∧
  (∀ c, head a = Some c → isspace c = false) ∧
  (∀ c, last a = Some c → isspace c = false).
Proof.
  rewrite (serve_valid _ _ _ Hkey Hne _ _ _ Hmsg).
  reply_cases; try discriminate.
  destruct (encodable (strip text)); [|discriminate].
  intros [= <- _].
  split; [apply strip_idempotent|]. apply strip_trimmed.
Qed.

(** X10: the answer is the empty string exactly when the text of the first
    choice is empty or all white space. *)
Theorem empty_answer_iff_blank (text : str) (rest : list Choice) :
  provider w (outbound w) (sent {| api_key := k |} msg) = first_choice (Some text) rest →
  fst <$> serve (start environ0 dotenv) (post_assistant (Body (JObj members))) w =
    Some (answer_response []) ↔
  all_space text = true.
Proof.
  intros Hp.
  rewrite (serve_valid _ _ _ Hkey Hne _ _ _ Hmsg).
  rewrite Hp. simpl. rewrite <- strip_nil_iff. split.
  - destruct (encodable (strip text)); [|discriminate]. by intros [= ->].
  - by intros ->.
Qed.

End Answers.

(** ** Members the model does not declare *)

Lemma obj_get_app (key : str) (l1 l2 : list (str * json)) :
  obj_get key (l1 ++ l2) =
    match obj_get key l2 with
    | Some v => Some v
    | None => obj_get key l1
    end.
Proof.
  induction l1 as [|[k' v'] l1 IH]; simpl.
  - by destruct (obj_get key l2).
  - rewrite IH. by destruct (obj_get key l2).
Qed.

Lemma obj_get_other (key k' : str) (v : json) (l1 l2 : list (str * json)) :
  k' ≠ key →
  obj_get key (l1 ++ (k', v) :: l2) = obj_get key (l1 ++ l2).
Proof.
  intros Hne. rewrite !obj_get_app. simpl.
  destruct (obj_get key l2); [done|]. by rewrite decide_False.
Qed.

(** X11: when the body carries a string [message], a member under any
    other name is ignored: with or without it, the request gets the
    same response and causes the same provider calls. (Without a
    string [message] the error response echoes the body, the other
    member included.) *)
Theorem other_members_are_ignored
  (p : Process) (name : str) (v : json) (before after : list (str * json))
  (msg : str) (w : World) :
  name ≠ lit "message" →
  obj_get (lit "message") (before ++ after) = Some (JStr msg) →
  serve p (post_assistant (Body (JObj (before ++ (name, v) :: after)))) w =
  serve p (post_assistant (Body (JObj (before ++ after)))) w.
Proof.
  intros Hne Hm. destruct p as [g|e g]; [|done].
  unfold serve. destruct (app g) as [a|]; [|done].
  unfold dispatch. simpl.
  destruct (List.find _ (routes a)) as [r|]; [|done].
  destruct (route_endpoint r); [done|].
  rewrite (assistant_route_accepted _ _ {| message := msg |})
    by (apply validate_object; by rewrite obj_get_other).
  by rewrite (assistant_route_accepted _ _ {| message := msg |})
    by by apply validate_object.
Qed.

(** ** The further statements at sample inputs *)

(** A valid question sends one call even though the provider times
    out. *)
Lemma provider_called_only_for_valid_post_witness :
  ∃ r w',
    serve (start env_key ∅) (post_assistant (Body (JObj rules_question)))
          (world (Failure timeout_error)) = Some (r, w') ∧
    provider w' = provider (world (Failure timeout_error)) ∧
    outbound w' =
      [ sent {| api_key := lit "sk-test" |} (lit "What are the rules of tic tac toe?") ].
Proof.
  refine (provider_called_only_for_valid_post env_key ∅ (lit "sk-test") env_key_lookup _
            (post_assistant (Body (JObj rules_question))) (world (Failure timeout_error))).
  discriminate.
Defined.

(** A reply whose text holds a lone surrogate is answered 500, after
    the one call has been made. *)
Lemma valid_post_status_by_reply_witness :
  ∃ r,
    serve (start env_key ∅) (post_assistant (Body (JObj rules_question)))
          (world (first_choice (Some [32; 104; 55296; 105; 32]%N) [])) =
      Some (r, logged (world (first_choice (Some [32; 104; 55296; 105; 32]%N) []))
                      (sent {| api_key := lit "sk-test" |}
                            (lit "What are the rules of tic tac toe?"))) ∧
    status r = 500.
Proof.
  refine (valid_post_status_by_reply env_key ∅ (lit "sk-test") env_key_lookup _
            rules_question _
            (world (first_choice (Some [32; 104; 55296; 105; 32]%N) []))
            rules_question_message).
  discriminate.
Defined.

Lemma wrong_method_is_405_witness :
  serve (start env_key ∅) {| method := GET; path := lit "/assistant"; body := NoBody |}
        (world (Failure timeout_error)) =
    Some (method_not_allowed, world (Failure timeout_error)).
Proof.
  refine (wrong_method_is_405 env_key ∅ (lit "sk-test") env_key_lookup _
            {| method := GET; path := lit "/assistant"; body := NoBody |}
            (world (Failure timeout_error)) (or_intror (conj eq_refl eq_refl))).
  discriminate.
Defined.

(** The variable is set and the file names another key: the variable's
    value is used. *)
Lemma process_environment_takes_precedence_witness :
  ∃ g, start env_key dotenv_key = Serving g ∧
       openai_client g = Some {| api_key := lit "sk-test" |}.
Proof.
  refine (proj1 (process_environment_takes_precedence env_key dotenv_key (lit "sk-test")
                   eq_refl) _).
  discriminate.
Defined.

Lemma response_determined_by_reply_witness :
  fst <$> serve (start env_key ∅) (post_assistant (Body (JObj rules_question)))
            (world (first_choice (Some (lit " Take the centre. ")) [])) =
  fst <$> serve (start ∅ dotenv_key)
            (post_assistant (Body (JObj [ (lit "message", JStr (lit "hint?")) ])))
            (world (first_choice (Some (lit " Take the centre. ")) [])).
Proof.
  refine (response_determined_by_reply
    env_key ∅ ∅ dotenv_key (lit "sk-test") (lit "sk-from-file")
    rules_question [ (lit "message", JStr (lit "hint?")) ] _ _
    (world (first_choice (Some (lit " Take the centre. ")) []))
    (world (first_choice (Some (lit " Take the centre. ")) []))
    env_key_lookup _ dotenv_key_lookup _ rules_question_message eq_refl eq_refl);
    discriminate.
Defined.

Lemma failure_keeps_cause_witness :
  ∃ w', ask_assistant (Some {| api_key := lit "sk-test" |}) {| message := lit "hint?" |}
          (world (Failure auth_error)) =
          (Raise (HTTPException 502 BAD_GATEWAY_DETAIL (Some auth_error)), w') ∧
        render_exception (HTTPException 502 BAD_GATEWAY_DETAIL (Some auth_error)) =
          bad_gateway_response.
Proof.
  exact (failure_keeps_cause {| api_key := lit "sk-test" |} {| message := lit "hint?" |}
           (world (Failure auth_error)) auth_error eq_refl).
Defined.

Lemma answers_are_stripped_witness :
  strip (lit "Take the centre.") = lit "Take the centre." ∧
  (∀ c, head (lit "Take the centre.") = Some c → isspace c = false) ∧
  (∀ c, last (lit "Take the centre.") = Some c → isspace c = false).
Proof.
  refine (answers_are_stripped env_key ∅ (lit "sk-test") env_key_lookup _
    rules_question _ (world (first_choice (Some (lit " Take the centre. ")) []))
    rules_question_message (lit "Take the centre.") _ eq_refl).
  discriminate.
Defined.

(** A reply of three spaces gives the empty answer. *)
Lemma empty_answer_iff_blank_witness :
  fst <$> serve (start env_key ∅) (post_assistant (Body (JObj rules_question)))
            (world (first_choice (Some (lit "   ")) [])) =
    Some (answer_response []) ↔
  all_space (lit "   ") = true.
Proof.
  refine (empty_answer_iff_blank env_key ∅ (lit "sk-test") env_key_lookup _
    rules_question _ (world (first_choice (Some (lit "   ")) []))
    rules_question_message (lit "   ") [] eq_refl).
  discriminate.
Defined.

(** A [user] member next to the message changes nothing. *)
Lemma other_members_are_ignored_witness :
  serve (start env_key ∅)
        (post_assistant (Body (JObj ((lit "user", JInt 7) :: rules_question))))
        (world (first_choice (Some (lit "Hello!")) [])) =
  serve (start env_key ∅) (post_assistant (Body (JObj rules_question)))
        (world (first_choice (Some (lit "Hello!")) [])).
Proof.
  refine (other_members_are_ignored (start env_key ∅) (lit "user") (JInt 7) []
            rules_question (lit "What are the rules of tic tac toe?")
            (world (first_choice (Some (lit "Hello!")) [])) _ eq_refl).
  discriminate.
Defined.
